(** * Data generators: [BaseGenerator] and the out-of-core [MemoryMapGenerator]

    A shallow embedding of the two Python classes of the data-generator
    tutorial (tutorials/C_Feature_Tutorial_7_Data_Generators.ipynb):

    - [BaseGenerator], the base class whose methods are all placeholders;
    - [MemoryMapGenerator], which wraps an array stored on disk and yields
      contiguous slices of it together with the matching slices of a weight
      array.

    Python integers are [Z].  An array is seen along its leading axis only, as
    the list of its entries (the rows of a matrix, the scalars of a vector):
    nothing in the two classes looks inside an entry.  A call either returns a
    value or raises an exception ([outcome]).  A Python generator is the frame
    it is suspended in ([frame]); [resume] runs it up to its next [yield]. *)

From stdpp Require Import gmap strings list.
From Stdlib Require Import ZArith Lia.

Local Open Scope Z_scope.

(** ** Python values and calls *)

(** The exception classes that occur.  A class is also a first-class value:
    [return NotImplementedError] hands the class itself back to the caller. *)
Inductive exception :=
  | NotImplementedError
  | StopIteration
  | FileNotFoundError.

(** The result of a call: [return v] or [raise e]. *)
Inductive outcome (A : Type) :=
  | Return (v : A)
  | Raise (e : exception).
Arguments Return {A} v.
Arguments Raise {A} e.

(** Whether the call ended in [raise]. *)
Definition raised {A : Type} (r : outcome A) : bool :=
  match r with
  | Return _ => false
  | Raise _ => true
  end.

Global Instance outcome_ret : MRet outcome := λ A v, Return v.
Global Instance outcome_bind : MBind outcome := λ A B f r,
  match r with
  | Return v => f v
  | Raise e => Raise e
  end.

(** ** Arrays *)

Section Arrays.
Context {item : Type}.

(** [PySlice_AdjustIndices] for a step of 1: a negative index counts from
    the end, and the result is clamped to [0, n]. *)
Definition adjust_index (n i : Z) : Z :=
  if i <? 0 then Z.max (i + n) 0 else Z.min i n.

(** [a[start:stop]]. *)
Definition slice (a : list item) (start stop : Z) : list item :=
  let n := Z.of_nat (length a) in
  let lo := adjust_index n start in
  let hi := adjust_index n stop in
  take (Z.to_nat (hi - lo)) (drop (Z.to_nat lo) a).

(** [numpy.ones(n)], given the scalar 1.0. *)
Definition numpy_ones (one : item) (n : nat) : list item := replicate n one.

(** [numpy.load(filename, mmap_mode='r')].  The disk gives, by name, the
    files that hold an array [numpy.load] can map into memory, with the array
    in each; opening a name that is not there raises [FileNotFoundError].
    Files that are there but cannot be mapped (an array of Python objects, on
    which the call raises [ValueError]) are not part of this disk. *)
Definition numpy_load (disk : gmap string (list item)) (filename : string)
  : outcome (list item) :=
  match disk !! filename with
  | Some a => Return a
  | None => Raise FileNotFoundError
  end.
End Arrays.

(** ** BaseGenerator *)

Module BaseGenerator.
(** An instance has no attributes. *)
Inductive t : Set := instance.

Definition __init__ : outcome t := Return instance.

(** Every method body is [return NotImplementedError]. *)
Definition __len__ (self : t) : outcome exception := Return NotImplementedError.
Definition shape (self : t) : outcome exception := Return NotImplementedError.
Definition ndim (self : t) : outcome exception := Return NotImplementedError.
Definition batches (self : t) : outcome exception := Return NotImplementedError.
Definition unlabeled_batches (self : t) : outcome exception :=
  Return NotImplementedError.
Definition labeled_batches (self : t) : outcome exception :=
  Return NotImplementedError.
End BaseGenerator.

(** ** MemoryMapGenerator *)

Module MemoryMapGenerator.
Section Class.
Context {item : Type}.

(** The attributes set by [__init__]. *)
Record t := {
  X : list item;
  weights : list item;
  batch_size : Z
}.

(** [__init__(self, filename, weights=None, batch_size=None)]; [one] is the
    scalar 1.0 that [numpy.ones] fills with. *)
Definition __init__ (one : item) (disk : gmap string (list item))
    (filename : string) (weights : option string) (batch_size : option Z)
  : outcome t :=
  x ← numpy_load disk filename;
  w ← match weights with
      | None => Return (numpy_ones one (length x))
      | Some weights => numpy_load disk weights
      end;
  let b := match batch_size with
           | None => Z.of_nat (length x)
           | Some batch_size => batch_size
           end in
  Return {| X := x; weights := w; batch_size := b |}.

Definition __len__ (self : t) : Z := Z.of_nat (length (X self)).

(** What one [yield] hands over: the pair (feature slice, weight slice). *)
Definition batch : Type := list item * list item.

(** The frame of a generator made by [batches()]: not started yet,
    suspended at the [yield] with its three locals, or returned. *)
Inductive frame :=
  | Created
  | Suspended (start end_ iteration : Z)
  | Finished.

(** Calling [batches()] runs none of the body. *)
Definition batches (self : t) : frame := Created.

(** From the test of the [while] loop to the [yield] or to the return. *)
Definition loop (self : t) (start end_ iteration : Z) : outcome batch * frame :=
  if start <? __len__ self
  then (Return (slice (X self) start end_, slice (weights self) start end_),
        Suspended start end_ iteration)
  else (Raise StopIteration, Finished).

(** One [next()] on the generator. *)
Definition resume (self : t) (fr : frame) : outcome batch * frame :=
  match fr with
  | Created => loop self 0 (batch_size self) 0
  | Suspended start end_ iteration =>
      loop self (start + batch_size self) (end_ + batch_size self) (iteration + 1)
  | Finished => (Raise StopIteration, Finished)
  end.

(** The frame after [k] calls of [next()] on a fresh generator, and what
    call number [k] (counting from 0) gives. *)
Fixpoint after (self : t) (k : nat) : frame :=
  match k with
  | O => batches self
  | S k' => (resume self (after self k')).2
  end.

Definition yielded (self : t) (k : nat) : outcome batch :=
  (resume self (after self k)).1.

(** [list(it)] for a generator in frame [fr]: [None] when [fuel] calls of
    [next()] did not exhaust it. *)
Fixpoint drain (fuel : nat) (self : t) (fr : frame) : option (outcome (list batch)) :=
  match fuel with
  | O => None
  | S fuel' =>
      match resume self fr with
      | (Return b, fr') =>
          r ← drain fuel' self fr'; Some (bs ← r; Return (b :: bs))
      | (Raise StopIteration, _) => Some (Return [])
      | (Raise e, _) => Some (Raise e)
      end
  end.

(** One epoch: [list(self.batches())]. *)
Definition epoch (fuel : nat) (self : t) : option (outcome (list batch)) :=
  drain fuel self (batches self).

(** The traversal ends: some number of [next()] calls exhausts it. *)
Definition terminates (self : t) : Prop :=
  ∃ fuel, is_Some (epoch fuel self).

(** *** Several generators alive at once

    The interpreter holds the instance and the frames of the generators made
    from it so far; a generator is referred to by its position. *)
Record heap := {
  this : t;
  generators : list frame
}.

Definition new_heap (self : t) : heap := {| this := self; generators := [] |}.

(** [g = self.batches()]. *)
Definition call_batches (h : heap) : nat * heap :=
  (length (generators h),
   {| this := this h; generators := generators h ++ [batches (this h)] |}).

(** The body of [batches()] as a transition of all it can reach in the store:
    the instance, whose attributes it reads ([self.batch_size], [self.X],
    [self.weights], [len(self)]), and its own locals [start], [end] and
    [iteration], the only names it assigns. *)
Definition body (self : t) (fr : frame) : outcome batch * t * frame :=
  let '(r, fr') := resume self fr in
  (r, self, fr').

(** [next(g)]: the body runs on the instance and on the frame of [g], and both
    go back to the store as the body left them; [None] when [g] refers to no
    generator. *)
Definition next (g : nat) (h : heap) : option (outcome batch * heap) :=
  fr ← generators h !! g;
  let '(r, self', fr') := body (this h) fr in
  Some (r, {| this := self'; generators := <[g := fr']> (generators h) |}).

(** A sequence of [next()] calls, each on the generator named; the log
    keeps who was called and what came back. *)
Fixpoint run (calls : list nat) (h : heap)
  : option (list (nat * outcome batch) * heap) :=
  match calls with
  | [] => Some ([], h)
  | g :: calls' =>
      '(r, h') ← next g h;
      '(log, h'') ← run calls' h';
      Some ((g, r) :: log, h'')
  end.

(** What generator [g] gave, in order. *)
Definition outputs_of (g : nat) (log : list (nat * outcome batch))
  : list (outcome batch) :=
  snd <$> filter (λ c, c.1 = g) log.

(** The client that calls [batches()] twice:
    [g1 = self.batches()], then [k] times [next(g1)], then
    [g2 = self.batches()], then one [next()] per entry of [calls], on [g2]
    where the entry is [true] and on [g1] where it is [false].
    It reports what [g1] gave before [g2] was made, what [g1] gave after,
    what [g2] gave, and the instance as it is in the end. *)
Definition batches_twice (self : t) (k : nat) (calls : list bool)
  : option (list (outcome batch) * list (outcome batch) * list (outcome batch) * t) :=
  let '(g1, h) := call_batches (new_heap self) in
  '(log1, h) ← run (replicate k g1) h;
  let '(g2, h) := call_batches h in
  '(log, h) ← run ((λ second : bool, if second then g2 else g1) <$> calls) h;
  Some (outputs_of g1 log1, outputs_of g1 log, outputs_of g2 log, this h).
End Class.
Arguments t : clear implicits.
Arguments batch : clear implicits.
Arguments heap : clear implicits.
End MemoryMapGenerator.

(** ** Vocabulary of the statements *)

(** [ceil(n / b)]: for [b > 0], the least [c] with [n <= c * b]
    (lemma [ceil_div_least]). *)
Definition ceil_div (n b : Z) : Z := (n + b - 1) / b.

(** Window [k] of a traversal, as Python writes it:
    [(X[k*b : (k+1)*b], weights[k*b : (k+1)*b])]. *)
Definition window {item : Type} (self : MemoryMapGenerator.t item) (k : nat)
  : MemoryMapGenerator.batch item :=
  let b := MemoryMapGenerator.batch_size self in
  (slice (MemoryMapGenerator.X self) (Z.of_nat k * b) ((Z.of_nat k + 1) * b),
   slice (MemoryMapGenerator.weights self) (Z.of_nat k * b) ((Z.of_nat k + 1) * b)).

(** How many times [x] occurs in [l]. *)
Definition occurrences {A : Type} `{EqDecision A} (x : A) (l : list A) : nat :=
  length (filter (λ y, y = x) l).

(** Disks for the examples: a dataset of three examples with a weight file
    of two entries; an empty dataset; one example with two weights. *)
Definition mismatched_disk : gmap string (list Z) :=
  <["w.npy" := [2; 3]]> {[ "X.npy" := [5; 6; 7] ]}.
Definition empty_disk : gmap string (list Z) := {[ "X.npy" := [] ]}.
Definition long_weights_disk : gmap string (list Z) :=
  <["w.npy" := [2; 3]]> {[ "X.npy" := [5] ]}.

(** What the constructor makes of them in the examples. *)
Definition three_whole : MemoryMapGenerator.t Z :=
  {| MemoryMapGenerator.X := [5; 6; 7];
     MemoryMapGenerator.weights := [1; 1; 1];
     MemoryMapGenerator.batch_size := 3 |}.
Definition three_by_two : MemoryMapGenerator.t Z :=
  {| MemoryMapGenerator.X := [5; 6; 7];
     MemoryMapGenerator.weights := [1; 1; 1];
     MemoryMapGenerator.batch_size := 2 |}.
Definition none_by_four : MemoryMapGenerator.t Z :=
  {| MemoryMapGenerator.X := [];
     MemoryMapGenerator.weights := [];
     MemoryMapGenerator.batch_size := 4 |}.

Definition three_by_zero : MemoryMapGenerator.t Z :=
  {| MemoryMapGenerator.X := [5; 6; 7];
     MemoryMapGenerator.weights := [1; 1; 1];
     MemoryMapGenerator.batch_size := 0 |}.

(** A dataset of five examples with unit weights, read two at a time. *)
Definition five : MemoryMapGenerator.t Z :=
  {| MemoryMapGenerator.X := [10; 11; 12; 13; 14];
     MemoryMapGenerator.weights := [1; 1; 1; 1; 1];
     MemoryMapGenerator.batch_size := 2 |}.

(** The same five examples with seven weights, and three examples read
    with a batch size of -1. *)
Definition five_long_weights : MemoryMapGenerator.t Z :=
  {| MemoryMapGenerator.X := [10; 11; 12; 13; 14];
     MemoryMapGenerator.weights := [1; 2; 3; 4; 5; 6; 7];
     MemoryMapGenerator.batch_size := 2 |}.
Definition three_backwards : MemoryMapGenerator.t Z :=
  {| MemoryMapGenerator.X := [5; 6; 7];
     MemoryMapGenerator.weights := [1; 1; 1];
     MemoryMapGenerator.batch_size := -1 |}.

(** * Properties *)

(** ** Slices *)

Section SliceLemmas.
Context {item : Type}.
Implicit Types (a : list item) (s e n : Z).

Lemma adjust_index_range n i : 0 ≤ n → 0 ≤ adjust_index n i ≤ n.
Proof. unfold adjust_index. destruct (Z.ltb_spec i 0); lia. Qed.

Lemma adjust_index_id n i : 0 ≤ i ≤ n → adjust_index n i = i.
Proof. unfold adjust_index. destruct (Z.ltb_spec i 0); lia. Qed.

Lemma adjust_index_min n i : 0 ≤ n → adjust_index n (Z.min i n) = adjust_index n i.
Proof.
  intros Hn. unfold adjust_index.
  destruct (Z.ltb_spec i 0), (Z.ltb_spec (Z.min i n) 0); lia.
Qed.

Lemma length_slice a s e :
  length (slice a s e) =
  Z.to_nat (adjust_index (Z.of_nat (length a)) e - adjust_index (Z.of_nat (length a)) s).
Proof.
  unfold slice. rewrite length_take, length_drop.
  pose proof (adjust_index_range (Z.of_nat (length a)) s ltac:(lia)).
  pose proof (adjust_index_range (Z.of_nat (length a)) e ltac:(lia)).
  lia.
Qed.

(** The stop index may be clamped to the length beforehand. *)
Lemma slice_min a s e : slice a s (Z.min e (Z.of_nat (length a))) = slice a s e.
Proof. unfold slice. rewrite adjust_index_min by lia. done. Qed.

(** With indices in order and not negative, a slice is the window
    [[s, e)] of the array, cut at its end. *)
Lemma slice_take_drop a s e :
  0 ≤ s → s ≤ e → slice a s e = take (Z.to_nat (e - s)) (drop (Z.to_nat s) a).
Proof.
  intros Hs He. unfold slice, adjust_index.
  destruct (Z.ltb_spec s 0), (Z.ltb_spec e 0); try lia.
  destruct (Z.le_gt_cases (Z.of_nat (length a)) s) as [Hge|Hlt].
  - rewrite !(drop_ge a) by lia. by rewrite !take_nil.
  - replace (Z.min s (Z.of_nat (length a))) with s by lia.
    destruct (Z.le_gt_cases e (Z.of_nat (length a))).
    + by replace (Z.min e (Z.of_nat (length a))) with e by lia.
    + rewrite !take_ge; [done | rewrite length_drop; lia ..].
Qed.

Lemma slice_lookup a s e (j : nat) :
  0 ≤ s → s ≤ e → Z.of_nat j < e - s →
  slice a s e !! j = a !! (Z.to_nat s + j)%nat.
Proof.
  intros Hs He Hj. rewrite slice_take_drop by done.
  rewrite lookup_take_lt by lia. apply lookup_drop.
Qed.

(** A slice of an array of ones is an array of ones. *)
Lemma slice_replicate (x : item) (m : nat) s e :
  slice (replicate m x) s e = replicate (length (slice (replicate m x) s e)) x.
Proof.
  unfold slice at 2. rewrite length_take, length_drop.
  unfold slice. rewrite drop_replicate, take_replicate, !length_replicate.
  done.
Qed.

End SliceLemmas.

(** The length of a slice depends on the length of the array only. *)
Lemma length_slice_eq {item item' : Type} (a : list item) (a' : list item') s e :
  length a = length a' → length (slice a s e) = length (slice a' s e).
Proof. intros Hlen. rewrite !length_slice, Hlen. done. Qed.

(** ** The frames of a traversal *)

Section Traversal.
Import MemoryMapGenerator.
Context {item : Type}.
Implicit Types (self : t item) (k j : nat).

(** As long as no window so far started at or past the end, the frame
    after [k] calls is suspended in window [k - 1]. *)
Lemma after_running self k :
  (∀ j, (j < k)%nat → Z.of_nat j * batch_size self < __len__ self) →
  after self k =
    match k with
    | O => Created
    | S k' => Suspended (Z.of_nat k' * batch_size self)
                        ((Z.of_nat k' + 1) * batch_size self) (Z.of_nat k')
    end.
Proof.
  induction k as [|k IH]; intros Hrun; [done|].
  cbn [after]. rewrite IH by (intros j Hj; apply Hrun; lia).
  assert (Z.of_nat k * batch_size self < __len__ self) as Hk by (apply Hrun; lia).
  destruct k as [|k]; cbn [resume]; unfold loop.
  - destruct (Z.ltb_spec 0 (__len__ self)); [|lia].
    cbn. f_equal; lia.
  - destruct (Z.ltb_spec (Z.of_nat k * batch_size self + batch_size self)
                         (__len__ self)); [|lia].
    cbn. f_equal; lia.
Qed.

(** Once the generator has returned, it stays so. *)
Lemma resume_Finished self : resume self Finished = (Raise StopIteration, Finished).
Proof. done. Qed.

(** Whatever the frame, a yielded batch is a pair of slices taken at the
    same two indices. *)
Lemma resume_Return self fr b fr' :
  resume self fr = (Return b, fr') →
  ∃ s e, b = (slice (X self) s e, slice (weights self) s e).
Proof.
  destruct fr as [|s e i|]; cbn [resume]; unfold loop;
    [destruct (_ <? _) .. |]; intros [= <- <-]; eauto.
Qed.
End Traversal.

(** ** Small runs of the model *)

Section Runs.
Import MemoryMapGenerator.

Example epoch_five :
  epoch 4 five = Some (Return [([10; 11], [1; 1]); ([12; 13], [1; 1]); ([14], [1])]).
Proof. reflexivity. Qed.

Example epoch_five_short_of_fuel : epoch 3 five = None.
Proof. reflexivity. Qed.

Example batches_twice_five :
  batches_twice five 2 [true; false; true; false; true; true]
  = Some ([Return ([10; 11], [1; 1]); Return ([12; 13], [1; 1])],
          [Return ([14], [1]); Raise StopIteration],
          [Return ([10; 11], [1; 1]); Return ([12; 13], [1; 1]);
           Return ([14], [1]); Raise StopIteration],
          five).
Proof. reflexivity. Qed.

Example slice_negative : slice [1; 2; 3; 4; 5] (-2) (-1) = [4].
Proof. reflexivity. Qed.

Example slice_past_end : slice [1; 2; 3; 4; 5] 3 100 = [4; 5].
Proof. reflexivity. Qed.

Example init_defaults :
  __init__ 1 {[ "X.npy" := [5; 6; 7] ]} "X.npy" None None
  = Return {| X := [5; 6; 7]; weights := [1; 1; 1]; batch_size := 3 |}.
Proof. reflexivity. Qed.

Example init_missing_file :
  __init__ 1 (∅ : gmap string (list Z)) "X.npy" None None = Raise FileNotFoundError.
Proof. reflexivity. Qed.
End Runs.

(** ** The windows of a traversal *)

Section Windows.
Import MemoryMapGenerator.
Context {item : Type}.
Implicit Types (self : t item) (k j : nat).

(** Call [k] of [next()], as long as the traversal has not stopped
    earlier. *)
Lemma resume_after self k :
  (∀ j, (j < k)%nat → Z.of_nat j * batch_size self < __len__ self) →
  resume self (after self k) =
    if Z.of_nat k * batch_size self <? __len__ self
    then (Return (window self k),
          Suspended (Z.of_nat k * batch_size self)
                    ((Z.of_nat k + 1) * batch_size self) (Z.of_nat k))
    else (Raise StopIteration, Finished).
Proof.
  intros Hrun. rewrite after_running by done. unfold window.
  destruct k as [|k]; cbn [resume]; unfold loop; cbn zeta.
  - change (Z.of_nat 0) with 0. rewrite Z.mul_0_l, Z.add_0_l, Z.mul_1_l. done.
  - replace (Z.of_nat k * batch_size self + batch_size self)
      with (Z.of_nat (S k) * batch_size self) by lia.
    replace ((Z.of_nat k + 1) * batch_size self + batch_size self)
      with ((Z.of_nat (S k) + 1) * batch_size self) by lia.
    replace (Z.of_nat k + 1) with (Z.of_nat (S k)) by lia. done.
Qed.

(** C1.  For any dataset length [n] and any batch size [b]: as long as the
    traversal has not stopped before call [k] (every earlier window started
    below [n]), call [k] of [next()] tests [k * b < n].  If so it yields
    the pair (X[k*b : min((k+1)*b, n)], weights[k*b : (k+1)*b]) and stays
    suspended with [start = k*b], [end = (k+1)*b]: the windows start at 0,
    are [b] wide, move by [b] each step, and the last one is cut at the end
    of the dataset.  Otherwise ([start >= n]) the traversal stops. *)
Theorem batches_walks_windows self k :
  let n := __len__ self in
  let b := batch_size self in
  (∀ j, (j < k)%nat → Z.of_nat j * b < n) →
  resume self (after self k) =
    if Z.of_nat k * b <? n
    then (Return (slice (X self) (Z.of_nat k * b) (Z.min ((Z.of_nat k + 1) * b) n),
                  slice (weights self) (Z.of_nat k * b) ((Z.of_nat k + 1) * b)),
          Suspended (Z.of_nat k * b) ((Z.of_nat k + 1) * b) (Z.of_nat k))
    else (Raise StopIteration, Finished).
Proof.
  intros n b Hrun. subst n b. rewrite resume_after by done.
  unfold window, __len__. rewrite slice_min. done.
Qed.
End Windows.

Lemma batches_walks_windows_witness :
  (∀ j, (j < 2)%nat → Z.of_nat j * 2 < 5) ∧
  MemoryMapGenerator.resume five (MemoryMapGenerator.after five 2)
  = (Return ([14], [1]), MemoryMapGenerator.Suspended 4 6 2).
Proof.
  assert (∀ j, (j < 2)%nat → Z.of_nat j * 2 < 5) as Hrun by (intros j Hj; lia).
  split; [exact Hrun|].
  exact (batches_walks_windows five 2 Hrun).
Defined.

(** ** Whole epochs, for a positive batch size *)

Lemma ceil_div_lt n b j : 0 < b → j < ceil_div n b ↔ j * b < n.
Proof.
  intros Hb. unfold ceil_div.
  pose proof (Z.div_mod (n + b - 1) b) as Hdiv.
  pose proof (Z.mod_pos_bound (n + b - 1) b Hb) as Hmod.
  split; intros H; nia.
Qed.

Lemma ceil_div_least n b : 0 < b →
  n ≤ ceil_div n b * b ∧ ∀ c, n ≤ c * b → ceil_div n b ≤ c.
Proof.
  intros Hb. split.
  - pose proof (proj2 (ceil_div_lt n b (ceil_div n b) Hb)). lia.
  - intros c Hc. pose proof (proj1 (ceil_div_lt n b c Hb)). lia.
Qed.

Lemma ceil_div_nonneg n b : 0 < b → 0 ≤ n → 0 ≤ ceil_div n b.
Proof. intros Hb Hn. pose proof (proj2 (ceil_div_lt n b (-1) Hb)). lia. Qed.

Section Epochs.
Import MemoryMapGenerator.
Context {item : Type}.
Implicit Types (self : t item) (k j m : nat).

(** With [m] windows left after [k] calls, [list()] collects exactly these
    [m] windows, given fuel for [m + 1] calls. *)
Lemma drain_after self m k fuel :
  0 < batch_size self →
  Z.of_nat (k + m) = ceil_div (__len__ self) (batch_size self) →
  (m < fuel)%nat →
  drain fuel self (after self k) = Some (Return (window self <$> seq k m)).
Proof.
  intros Hb. revert k fuel. induction m as [|m IH]; intros k fuel Hc Hfuel.
  all: destruct fuel as [|fuel]; [lia|]; cbn [drain].
  all: destruct (resume self (after self k)) as [r fr'] eqn:Hres.
  all: assert (fr' = after self (S k)) as -> by (cbn [after]; by rewrite Hres).
  all: rewrite resume_after in Hres by (intros j Hj; apply ceil_div_lt; lia).
  all: destruct (Z.ltb_spec (Z.of_nat k * batch_size self) (__len__ self))
         as [Hlt|Hge]; injection Hres as <-.
  - apply ceil_div_lt in Hlt; lia.
  - done.
  - rewrite (IH (S k) fuel) by lia. done.
  - pose proof (proj1 (ceil_div_lt (__len__ self) (batch_size self)
                         (Z.of_nat k) Hb)). lia.
Qed.

(** The feature slices of the first [m] windows, put end to end, are the
    first [m * b] examples. *)
Lemma concat_windows self m :
  0 < batch_size self →
  concat ((window self <$> seq 0 m).*1)
  = take (Z.to_nat (Z.of_nat m * batch_size self)) (X self).
Proof.
  intros Hb. induction m as [|m IH]; [done|].
  rewrite seq_S, !fmap_app, concat_app, IH. cbn [fmap list_fmap concat window fst].
  rewrite app_nil_r.
  assert (0 ≤ Z.of_nat m * batch_size self) by (apply Z.mul_nonneg_nonneg; lia).
  rewrite slice_take_drop by lia. rewrite take_take_drop. f_equal. lia.
Qed.

(** What one epoch gives when the batch size is positive: the windows
    [0 .. ceil(n / b) - 1]. *)
Lemma epoch_windows self fuel :
  0 < batch_size self →
  (Z.to_nat (ceil_div (__len__ self) (batch_size self)) < fuel)%nat →
  epoch fuel self
  = Some (Return (window self <$>
                  seq 0 (Z.to_nat (ceil_div (__len__ self) (batch_size self))))).
Proof.
  intros Hb Hfuel. unfold epoch. change (batches self) with (after self 0).
  apply drain_after; [done| |done].
  pose proof (ceil_div_nonneg (__len__ self) (batch_size self) Hb).
  unfold __len__ in *. lia.
Qed.

(** C2.  With a batch size [b >= 1] and a dataset of [n] examples, one
    epoch, run with fuel for more than [ceil(n / b)] calls of [next()],
    returns a list of exactly [ceil(n / b)] batches, and their feature
    slices put end to end in the order yielded are the dataset. *)
Theorem epoch_round_trip self :
  1 ≤ batch_size self →
  ∃ bs : list (batch item),
    (∀ fuel, (Z.to_nat (ceil_div (__len__ self) (batch_size self)) < fuel)%nat →
             epoch fuel self = Some (Return bs)) ∧
    Z.of_nat (length bs) = ceil_div (__len__ self) (batch_size self) ∧
    concat (bs.*1) = X self.
Proof.
  intros Hb.
  pose proof (ceil_div_nonneg (__len__ self) (batch_size self)) as Hc.
  pose proof (ceil_div_least (__len__ self) (batch_size self)) as [Hle _]; [lia|].
  eexists. split_and!.
  - intros fuel Hfuel. apply epoch_windows; [lia|done].
  - rewrite length_fmap, length_seq. unfold __len__ in *. lia.
  - rewrite concat_windows by lia. apply take_ge. unfold __len__ in *. lia.
Qed.
End Epochs.

Lemma epoch_round_trip_witness :
  1 ≤ 2 ∧
  ∃ bs : list (MemoryMapGenerator.batch Z),
    (∀ fuel, (3 < fuel)%nat → MemoryMapGenerator.epoch fuel five = Some (Return bs)) ∧
    Z.of_nat (length bs) = 3 ∧
    concat (bs.*1) = [10; 11; 12; 13; 14].
Proof.
  split; [lia|]. apply (epoch_round_trip five). cbn. lia.
Defined.

Lemma length_concat_sum {A : Type} (l : list (list A)) :
  length (concat l) = sum_list (length <$> l).
Proof. induction l as [|x l IH]; [done|]. cbn. rewrite length_app, IH. lia. Qed.

Section Partition.
Import MemoryMapGenerator.
Context {item : Type}.
Implicit Types (self : t item) (k j m i : nat).

Lemma lookup_windows self m k (b : batch item) :
  (window self <$> seq 0 m) !! k = Some b ↔ b = window self k ∧ (k < m)%nat.
Proof.
  rewrite list_lookup_fmap_Some. split.
  - intros (k' & -> & [-> Hk]%lookup_seq). done.
  - intros [-> Hk]. exists k. split; [done|]. by apply lookup_seq.
Qed.

(** Window [k] holds the examples at the positions from [k * b] up to
    [min ((k+1) * b, n)], the latter excluded. *)
Lemma length_window self k :
  0 < batch_size self →
  Z.of_nat k * batch_size self < __len__ self →
  Z.of_nat (length (window self k).1)
  = Z.min ((Z.of_nat k + 1) * batch_size self) (__len__ self)
    - Z.of_nat k * batch_size self.
Proof.
  intros Hb Hk. cbn [window fst]. rewrite length_slice. fold (__len__ self).
  assert (0 ≤ Z.of_nat k * batch_size self) by (apply Z.mul_nonneg_nonneg; lia).
  unfold adjust_index.
  destruct (Z.ltb_spec ((Z.of_nat k + 1) * batch_size self) 0),
           (Z.ltb_spec (Z.of_nat k * batch_size self) 0); lia.
Qed.

Lemma lookup_window self k j :
  0 < batch_size self →
  (j < length (window self k).1)%nat →
  (window self k).1 !! j = X self !! (Z.to_nat (Z.of_nat k * batch_size self) + j)%nat.
Proof.
  intros Hb Hj. cbn [window fst] in *.
  assert (0 ≤ Z.of_nat k * batch_size self) by (apply Z.mul_nonneg_nonneg; lia).
  rewrite slice_take_drop in Hj |- * by lia.
  rewrite length_take in Hj. rewrite lookup_take_lt by lia. apply lookup_drop.
Qed.

(** C3.  With a batch size [b >= 1], one epoch returns batches whose
    feature slices have lengths summing to [length()]; batch [k] holds the
    examples at the positions [k*b, k*b + 1, ...] of the dataset, as many as
    its length; and every position of the dataset lies in the range of
    exactly one batch: none is skipped, none comes twice. *)
Theorem epoch_partitions self :
  1 ≤ batch_size self →
  let b := batch_size self in
  let covers (k : nat) (bt : batch item) (i : nat) :=
    Z.of_nat k * b ≤ Z.of_nat i < Z.of_nat k * b + Z.of_nat (length bt.1) in
  ∃ bs : list (batch item),
    (∀ fuel, (Z.to_nat (ceil_div (__len__ self) b) < fuel)%nat →
             epoch fuel self = Some (Return bs)) ∧
    Z.of_nat (sum_list (length <$> bs.*1)) = __len__ self ∧
    (∀ k bt j, bs !! k = Some bt → (j < length bt.1)%nat →
               bt.1 !! j = X self !! (Z.to_nat (Z.of_nat k * b) + j)%nat) ∧
    (∀ i, (i < length (X self))%nat →
          ∃ k bt, bs !! k = Some bt ∧ covers k bt i) ∧
    (∀ i k k' bt bt', bs !! k = Some bt → bs !! k' = Some bt' →
                      covers k bt i → covers k' bt' i → k = k').
Proof.
  intros Hb b covers. subst covers b. cbn beta.
  assert (0 < batch_size self) as Hb' by lia.
  pose proof (ceil_div_nonneg (__len__ self) _ Hb') as Hc.
  pose proof (ceil_div_least (__len__ self) _ Hb') as [Hle _].
  assert (0 ≤ __len__ self) as Hn by (unfold __len__; lia).
  assert (∀ k bt,
            (window self <$>
             seq 0 (Z.to_nat (ceil_div (__len__ self) (batch_size self)))) !! k
            = Some bt →
            bt = window self k ∧ Z.of_nat k * batch_size self < __len__ self)
    as Hlook.
  { intros k bt [-> Hk]%lookup_windows. split; [done|].
    apply ceil_div_lt; [done|lia]. }
  eexists. split_and!.
  - intros fuel Hfuel. apply epoch_windows; done.
  - rewrite <- length_concat_sum, concat_windows by done.
    rewrite length_take, Z2Nat.id by lia. unfold __len__ in *. lia.
  - intros k bt j [-> Hk]%Hlook Hj. by apply lookup_window.
  - intros i Hi.
    assert (0 ≤ Z.of_nat i / batch_size self) as Hq by (apply Z.div_pos; lia).
    pose proof (Z.mul_div_le (Z.of_nat i) _ Hb') as Hlo.
    pose proof (Z.mul_succ_div_gt (Z.of_nat i) _ Hb') as Hhi.
    assert (Z.of_nat (Z.to_nat (Z.of_nat i / batch_size self)) * batch_size self
            < __len__ self) as Hk
      by (rewrite Z2Nat.id by done; unfold __len__; lia).
    exists (Z.to_nat (Z.of_nat i / batch_size self)),
           (window self (Z.to_nat (Z.of_nat i / batch_size self))).
    split.
    + apply lookup_windows. split; [done|].
      apply (ceil_div_lt _ _ _ Hb') in Hk. lia.
    + rewrite length_window by done.
      rewrite Z2Nat.id by done. unfold __len__ in *. lia.
  - intros i k k' bt bt' [-> Hk]%Hlook [-> Hk']%Hlook.
    rewrite !length_window by done. intros Hi Hi'. nia.
Qed.
End Partition.

(** The run of the tutorial: 10,000 examples read 1,000 at a time make ten
    batches of 1,000 examples each, none cut short. *)
Corollary epoch_ten_thousand {item : Type} (self : MemoryMapGenerator.t item) :
  MemoryMapGenerator.__len__ self = 10000 →
  MemoryMapGenerator.batch_size self = 1000 →
  ∃ bs, MemoryMapGenerator.epoch 11 self = Some (Return bs) ∧
        length bs = 10%nat ∧
        Forall (λ bt, Z.of_nat (length bt.1) = 1000) bs.
Proof.
  intros Hn Hb.
  assert (Z.to_nat (ceil_div (MemoryMapGenerator.__len__ self)
                             (MemoryMapGenerator.batch_size self)) = 10%nat) as Hc
    by (by rewrite Hn, Hb).
  eexists. split_and!.
  - apply epoch_windows; [lia|]. rewrite Hc. apply Nat.lt_succ_diag_r.
  - by rewrite length_fmap, length_seq.
  - rewrite Hc. apply Forall_fmap, Forall_forall. intros k [_ Hk]%elem_of_seq. cbn.
    pose proof (length_window self k) as Hlen. cbn in Hlen. lia.
Qed.

Lemma epoch_partitions_witness :
  1 ≤ 2 ∧
  ∃ bs : list (MemoryMapGenerator.batch Z),
    (∀ fuel, (3 < fuel)%nat → MemoryMapGenerator.epoch fuel five = Some (Return bs)) ∧
    Z.of_nat (sum_list (length <$> bs.*1)) = 5 ∧
    (∀ k bt j, bs !! k = Some bt → (j < length bt.1)%nat →
               bt.1 !! j = [10; 11; 12; 13; 14] !! (Z.to_nat (Z.of_nat k * 2) + j)%nat) ∧
    (∀ i, (i < 5)%nat →
          ∃ k bt, bs !! k = Some bt ∧
                  Z.of_nat k * 2 ≤ Z.of_nat i < Z.of_nat k * 2 + Z.of_nat (length bt.1)) ∧
    (∀ i k k' bt bt', bs !! k = Some bt → bs !! k' = Some bt' →
       Z.of_nat k * 2 ≤ Z.of_nat i < Z.of_nat k * 2 + Z.of_nat (length bt.1) →
       Z.of_nat k' * 2 ≤ Z.of_nat i < Z.of_nat k' * 2 + Z.of_nat (length bt'.1) →
       k = k').
Proof.
  split; [lia|]. apply (epoch_partitions five). cbn. lia.
Defined.

(** ** What the constructor accepts and fills in *)

Section Defaults.
Import MemoryMapGenerator.
Context {item : Type}.
Implicit Types (self : t item) (disk : gmap string (list item)).

(** What [__init__] gives when it returns. *)
Lemma init_Return (one : item) disk filename w b self :
  __init__ one disk filename w b = Return self →
  disk !! filename = Some (X self) ∧
  match w with
  | None => weights self = numpy_ones one (length (X self))
  | Some w => disk !! w = Some (weights self)
  end ∧
  batch_size self = match b with
                    | None => __len__ self
                    | Some b => b
                    end.
Proof.
  unfold __init__, numpy_load, mbind, outcome_bind.
  destruct (disk !! filename) as [x|] eqn:Hx; [|done].
  destruct w as [w|].
  - destruct (disk !! w) as [ws|] eqn:Hw; [|done].
    intros [= <-]. by destruct b.
  - intros [= <-]. by destruct b.
Qed.

(** C4, as the code has it.  The constructor compares no lengths: whenever
    the dataset file and the weight file both load, construction succeeds,
    whatever the two lengths, and the generator holds the arrays as they
    were loaded. *)
Theorem init_compares_no_lengths (one : item) disk filename w b x ws :
  disk !! filename = Some x →
  disk !! w = Some ws →
  __init__ one disk filename (Some w) b
  = Return {| X := x; weights := ws;
              batch_size := default (Z.of_nat (length x)) b |}.
Proof.
  intros Hx Hw. unfold __init__, numpy_load, mbind, outcome_bind.
  rewrite Hx, Hw. by destruct b.
Qed.

(** The first call of [next()] on an empty dataset. *)
Lemma resume_empty self :
  __len__ self = 0 → resume self (batches self) = (Raise StopIteration, Finished).
Proof. intros Hn. cbn. unfold loop. rewrite Hn. done. Qed.

(** C5, as the code has it.  Constructed with no batch size, the generator
    has the dataset length [n] as its batch size.  If [n > 0], one epoch is
    exactly one batch: the whole dataset with [weights[0:n]], which is the
    whole weight vector when that has at most [n] entries, as it has when
    no weight source was given.  If [n = 0], one epoch is no batch. *)
Theorem default_batch_size (one : item) disk filename w self :
  __init__ one disk filename w None = Return self →
  let n := __len__ self in
  batch_size self = n ∧
  (0 < n → ∀ fuel, (2 ≤ fuel)%nat →
     epoch fuel self = Some (Return [(X self, slice (weights self) 0 n)])) ∧
  ((length (weights self) ≤ length (X self))%nat →
     slice (weights self) 0 n = weights self) ∧
  (w = None → length (weights self) = length (X self)) ∧
  (n = 0 → ∀ fuel, (1 ≤ fuel)%nat → epoch fuel self = Some (Return [])).
Proof.
  intros (HX & Hw & Hb)%init_Return n. subst n. split_and!.
  - done.
  - intros Hn [|[|fuel]] Hfuel; [lia..|].
    unfold epoch. cbn [drain resume batches]. unfold loop.
    destruct (Z.ltb_spec 0 (__len__ self)); [|lia].
    cbn [resume]. unfold loop. rewrite Hb, Z.add_0_l.
    destruct (Z.ltb_spec (__len__ self) (__len__ self)); [lia|].
    cbn. do 4 f_equal. unfold __len__.
    rewrite slice_take_drop by lia. rewrite Z.sub_0_r, Nat2Z.id.
    by apply take_ge.
  - intros Hlen. unfold __len__. rewrite slice_take_drop by lia.
    rewrite Z.sub_0_r, Nat2Z.id. by apply take_ge.
  - intros ->. rewrite Hw. apply length_replicate.
  - intros Hn [|fuel] Hfuel; [lia|].
    unfold epoch. cbn [drain]. by rewrite resume_empty.
Qed.

(** C6.  Constructed with no weight source, the generator hands out, at
    every call of [next()] that yields a batch, a weight slice that is a
    vector of ones as long as the feature slice of that batch. *)
Theorem default_weights_are_ones (one : item) disk filename b self k xs ws :
  __init__ one disk filename None b = Return self →
  yielded self k = Return (xs, ws) →
  ws = replicate (length xs) one.
Proof.
  intros (_ & Hw & _)%init_Return Hk. unfold yielded in Hk.
  destruct (resume self (after self k)) as [r fr'] eqn:Hres. cbn in Hk. subst r.
  apply resume_Return in Hres as (s & e & [= -> ->]).
  rewrite Hw. unfold numpy_ones. rewrite slice_replicate. f_equal.
  apply length_slice_eq. by rewrite length_replicate.
Qed.

(** C7.  On a dataset of length zero, however the batch size and the
    weights were given to the constructor, the first call of [next()]
    raises [StopIteration], and one epoch is the empty list of batches. *)
Theorem empty_dataset_no_batches (one : item) disk filename w b self fuel :
  __init__ one disk filename w b = Return self →
  __len__ self = 0 →
  yielded self 0 = Raise StopIteration ∧
  epoch (S fuel) self = Some (Return []).
Proof.
  intros _ Hn. unfold yielded, epoch. cbn [after drain].
  by rewrite resume_empty.
Qed.
End Defaults.

Lemma init_compares_no_lengths_witness :
  mismatched_disk !! "X.npy" = Some [5; 6; 7] ∧
  mismatched_disk !! "w.npy" = Some [2; 3] ∧
  MemoryMapGenerator.__init__ 1 mismatched_disk "X.npy" (Some "w.npy") (Some 2)
  = Return {| MemoryMapGenerator.X := [5; 6; 7];
              MemoryMapGenerator.weights := [2; 3];
              MemoryMapGenerator.batch_size := 2 |}.
Proof.
  split_and!; [reflexivity..|].
  apply (init_compares_no_lengths 1 mismatched_disk "X.npy" "w.npy" (Some 2));
    reflexivity.
Defined.

(** C4, as the claim states it, fails: a weight file of two entries for a
    dataset of three examples is accepted, and the epoch then runs, pairing
    the three examples with the two weights. *)
Lemma init_accepts_mismatched_weights :
  length [2; 3] ≠ length [5; 6; 7] ∧
  ∃ self,
    MemoryMapGenerator.__init__ 1 mismatched_disk "X.npy" (Some "w.npy") None
    = Return self ∧
    MemoryMapGenerator.X self = [5; 6; 7] ∧
    MemoryMapGenerator.weights self = [2; 3] ∧
    MemoryMapGenerator.epoch 2 self = Some (Return [([5; 6; 7], [2; 3])]).
Proof. split; [done|]. eexists. split_and!; reflexivity. Qed.

Lemma default_batch_size_witness :
  MemoryMapGenerator.__init__ 1 mismatched_disk "X.npy" None None = Return three_whole ∧
  MemoryMapGenerator.epoch 2 three_whole = Some (Return [([5; 6; 7], [1; 1; 1])]).
Proof.
  assert (MemoryMapGenerator.__init__ 1 mismatched_disk "X.npy" None None
          = Return three_whole) as Hinit by reflexivity.
  split; [exact Hinit|].
  destruct (default_batch_size 1 mismatched_disk "X.npy" None three_whole Hinit)
    as (_ & Hone & _).
  apply Hone; [reflexivity | apply le_n].
Defined.

(** C5, as the claim states it, fails twice.  On an empty dataset the default
    batch size is 0 and the epoch has no batch at all; and with a weight file
    longer than the dataset the one batch holds only the first weights. *)
Lemma default_batch_size_not_one_whole_batch :
  (∃ self,
     MemoryMapGenerator.__init__ 1 empty_disk "X.npy" None None = Return self ∧
     MemoryMapGenerator.batch_size self = 0 ∧
     MemoryMapGenerator.epoch 1 self = Some (Return [])) ∧
  (∃ self,
     MemoryMapGenerator.__init__ 1 long_weights_disk "X.npy" (Some "w.npy") None
     = Return self ∧
     MemoryMapGenerator.weights self = [2; 3] ∧
     MemoryMapGenerator.epoch 2 self = Some (Return [([5], [2])])).
Proof. split; eexists; split_and!; reflexivity. Qed.

Lemma default_weights_are_ones_witness :
  MemoryMapGenerator.__init__ 1 mismatched_disk "X.npy" None (Some 2)
  = Return three_by_two ∧
  MemoryMapGenerator.yielded three_by_two 1 = Return ([7], [1]) ∧
  [1] = replicate (length [7]) 1.
Proof.
  split_and!; [reflexivity..|].
  apply (default_weights_are_ones 1 mismatched_disk "X.npy" (Some 2)
           three_by_two 1%nat [7] [1]); reflexivity.
Defined.

Lemma empty_dataset_no_batches_witness :
  MemoryMapGenerator.__init__ 1 empty_disk "X.npy" None (Some 4) = Return none_by_four ∧
  MemoryMapGenerator.__len__ none_by_four = 0 ∧
  MemoryMapGenerator.yielded none_by_four 0 = Raise StopIteration ∧
  MemoryMapGenerator.epoch 1 none_by_four = Some (Return []).
Proof.
  split_and!; [reflexivity..| |];
    apply (empty_dataset_no_batches 1 empty_disk "X.npy" None (Some 4)
             none_by_four 0%nat); reflexivity.
Defined.

(** ** The base class *)

(** C9, on the code.  Each of the six methods of [BaseGenerator] returns the
    class [NotImplementedError] to its caller as a value; none of them raises
    it, or raises anything. *)
Theorem BaseGenerator_returns_the_class (self : BaseGenerator.t) :
  Forall (λ r : outcome exception, r = Return NotImplementedError ∧ raised r = false)
    [BaseGenerator.__len__ self; BaseGenerator.shape self; BaseGenerator.ndim self;
     BaseGenerator.batches self; BaseGenerator.unlabeled_batches self;
     BaseGenerator.labeled_batches self].
Proof. repeat constructor. Qed.

(** ** Termination of a traversal *)

Section Termination.
Import MemoryMapGenerator.
Context {item : Type}.
Implicit Types (self : t item) (fr : frame).

(** With a batch size of 0 or less on a dataset that is not empty, [start]
    never gets past 0, and no amount of fuel exhausts the generator. *)
Lemma drain_stuck self fuel fr :
  batch_size self ≤ 0 → 0 < __len__ self →
  match fr with
  | Created => True
  | Suspended start _ _ => start ≤ 0
  | Finished => False
  end →
  drain fuel self fr = None.
Proof.
  intros Hb Hn. revert fr. induction fuel as [|fuel IH]; intros fr Hfr; [done|].
  cbn [drain]. destruct fr as [|s e i|]; [| |done]; cbn [resume]; unfold loop.
  - destruct (Z.ltb_spec 0 (__len__ self)); [|lia]. by rewrite IH.
  - destruct (Z.ltb_spec (s + batch_size self) (__len__ self)); [|lia].
    rewrite IH; [done|lia].
Qed.

(** C10.  One traversal ends after finitely many calls of [next()] exactly
    when the batch size is positive or the dataset is empty.  With a batch
    size of 0 on a dataset that is not empty, every call, however late,
    yields a pair of empty slices and leaves [start] and [end] at 0. *)
Theorem batches_terminates_iff self :
  (terminates self ↔ 0 < batch_size self ∨ __len__ self = 0) ∧
  (batch_size self = 0 → 0 < __len__ self →
   ∀ k : nat, resume self (after self k)
              = (Return ([], []), Suspended 0 0 (Z.of_nat k))).
Proof.
  split.
  - unfold terminates. split.
    + intros [fuel Hsome].
      destruct (decide (0 < batch_size self)) as [|Hb]; [by left|right].
      destruct (decide (__len__ self = 0)) as [|Hn]; [done|].
      unfold epoch in Hsome. rewrite drain_stuck in Hsome.
      * by destruct Hsome.
      * lia.
      * unfold __len__ in *. lia.
      * done.
    + intros [Hb|Hn].
      * eexists. rewrite epoch_windows; [done|done|]. apply Nat.lt_succ_diag_r.
      * exists 1%nat. unfold epoch. cbn [drain]. by rewrite resume_empty.
  - intros Hb Hn k. rewrite resume_after by (intros j _; rewrite Hb; lia).
    unfold window. rewrite Hb, !Z.mul_0_r.
    destruct (Z.ltb_spec 0 (__len__ self)); [|lia].
    unfold slice. rewrite !Z.sub_diag. done.
Qed.
End Termination.

Lemma batches_terminates_iff_witness :
  MemoryMapGenerator.batch_size three_by_zero = 0 ∧
  0 < MemoryMapGenerator.__len__ three_by_zero ∧
  ¬ MemoryMapGenerator.terminates three_by_zero ∧
  MemoryMapGenerator.resume three_by_zero (MemoryMapGenerator.after three_by_zero 4)
  = (Return ([], []), MemoryMapGenerator.Suspended 0 0 4).
Proof.
  destruct (batches_terminates_iff three_by_zero) as [[Hterm _] Hloop].
  split_and!; [reflexivity | reflexivity | | apply (Hloop eq_refl eq_refl 4%nat)].
  intros [Hpos|Hlen]%Hterm; [exact (Z.lt_irrefl 0 Hpos) | discriminate Hlen].
Defined.

(** * Further properties of [MemoryMapGenerator] *)

(** Consecutive slices of width [b], put end to end, are a prefix. *)
Lemma concat_slices {A : Type} (a : list A) (b : Z) (m : nat) :
  0 < b →
  concat ((λ k : nat, slice a (Z.of_nat k * b) ((Z.of_nat k + 1) * b)) <$> seq 0 m)
  = take (Z.to_nat (Z.of_nat m * b)) a.
Proof.
  intros Hb. induction m as [|m IH]; [done|].
  rewrite seq_S, fmap_app, concat_app, IH. cbn [fmap list_fmap concat].
  rewrite app_nil_r.
  assert (0 ≤ Z.of_nat m * b) by (apply Z.mul_nonneg_nonneg; lia).
  rewrite slice_take_drop by lia. rewrite take_take_drop. f_equal. lia.
Qed.

(** The length of a slice taken at indices that are not negative. *)
Lemma length_slice_nonneg {A : Type} (a : list A) (s e : Z) :
  0 ≤ s → 0 ≤ e →
  Z.of_nat (length (slice a s e))
  = Z.max 0 (Z.min e (Z.of_nat (length a)) - Z.min s (Z.of_nat (length a))).
Proof.
  intros Hs He. rewrite length_slice. unfold adjust_index.
  destruct (Z.ltb_spec s 0), (Z.ltb_spec e 0); lia.
Qed.

Section Exhaustion.
Import MemoryMapGenerator.
Context {item : Type}.
Implicit Types (self : t item) (k j : nat).

(** Past the last window the generator has returned. *)
Lemma after_exhausted self k :
  0 < batch_size self →
  ceil_div (__len__ self) (batch_size self) < Z.of_nat k →
  after self k = Finished.
Proof.
  intros Hb. induction k as [|k IH]; intros Hk.
  { pose proof (ceil_div_nonneg (__len__ self) _ Hb). unfold __len__ in *. lia. }
  cbn [after].
  destruct (decide (ceil_div (__len__ self) (batch_size self) = Z.of_nat k)) as [Hc|Hc].
  - rewrite resume_after by (intros j Hj; apply ceil_div_lt; lia).
    destruct (Z.ltb_spec (Z.of_nat k * batch_size self) (__len__ self)) as [Hlt|]; [|done].
    apply ceil_div_lt in Hlt; lia.
  - rewrite IH by lia. done.
Qed.

(** X1.  With a positive batch size [b], call number [k] of [next()] on a
    fresh generator yields window [k] while [k < ceil(n / b)], and raises
    [StopIteration] at every later call: once exhausted, the generator stays
    exhausted. *)
Theorem yielded_then_exhausted self k :
  0 < batch_size self →
  yielded self k =
    if Z.of_nat k <? ceil_div (__len__ self) (batch_size self)
    then Return (window self k)
    else Raise StopIteration.
Proof.
  intros Hb. unfold yielded.
  destruct (Z.ltb_spec (Z.of_nat k) (ceil_div (__len__ self) (batch_size self)))
    as [Hlt|Hge].
  - rewrite resume_after by (intros j Hj; apply ceil_div_lt; lia).
    apply ceil_div_lt in Hlt; [|done].
    by destruct (Z.ltb_spec (Z.of_nat k * batch_size self) (__len__ self)); [|lia].
  - destruct (decide (ceil_div (__len__ self) (batch_size self) = Z.of_nat k)) as [Hc|Hc].
    + rewrite resume_after by (intros j Hj; apply ceil_div_lt; lia).
      destruct (Z.ltb_spec (Z.of_nat k * batch_size self) (__len__ self)) as [Hlt|];
        [|done].
      apply ceil_div_lt in Hlt; lia.
    + rewrite after_exhausted by lia. done.
Qed.

(** X2.  With a positive batch size [b], a batch handed out at call [k] has
    exactly [min (b, n - k*b)] examples: never none, never more than [b], and
    fewer than [b] only when the dataset ends inside the window. *)
Theorem yielded_batch_length self k xs ws :
  0 < batch_size self →
  yielded self k = Return (xs, ws) →
  Z.of_nat (length xs)
  = Z.min (batch_size self) (__len__ self - Z.of_nat k * batch_size self) ∧
  1 ≤ Z.of_nat (length xs) ≤ batch_size self.
Proof.
  intros Hb. rewrite yielded_then_exhausted by done.
  destruct (Z.ltb_spec (Z.of_nat k) (ceil_div (__len__ self) (batch_size self)))
    as [Hlt|]; [|done].
  intros [= <- <-]. apply ceil_div_lt in Hlt; [|done].
  pose proof (length_window self k Hb Hlt) as Hlen. cbn [window fst] in Hlen.
  lia.
Qed.
End Exhaustion.

Lemma yielded_then_exhausted_witness :
  0 < 2 ∧
  MemoryMapGenerator.yielded five 2 = Return ([14], [1]) ∧
  MemoryMapGenerator.yielded five 3 = Raise StopIteration ∧
  MemoryMapGenerator.yielded five 9 = Raise StopIteration.
Proof.
  split_and!; [reflexivity | ..].
  - exact (yielded_then_exhausted five 2 eq_refl).
  - exact (yielded_then_exhausted five 3 eq_refl).
  - exact (yielded_then_exhausted five 9 eq_refl).
Defined.

Lemma yielded_batch_length_witness :
  0 < 2 ∧
  MemoryMapGenerator.yielded five 2 = Return ([14], [1]) ∧
  Z.of_nat (length [14]) = Z.min 2 (5 - 2 * 2) ∧
  1 ≤ Z.of_nat (length [14]) ≤ 2.
Proof.
  split_and!; [reflexivity | reflexivity | ..];
    apply (yielded_batch_length five 2 [14] [1] eq_refl eq_refl).
Defined.

(** Slicing two arrays at the same place and pairing the entries is slicing
    the array of pairs. *)
Lemma zip_slice {A B : Type} (a : list A) (a' : list B) (s e : Z) :
  0 ≤ s → s ≤ e → zip (slice a s e) (slice a' s e) = slice (zip a a') s e.
Proof.
  intros Hs He. rewrite !slice_take_drop by done.
  by rewrite zip_with_drop, zip_with_take.
Qed.

Section Weights.
Import MemoryMapGenerator.
Context {item : Type}.
Implicit Types (self : t item) (k j : nat).

(** X3.  With a positive batch size, pairing each example of a batch with the
    weight at the same place in the batch, batch after batch, gives the pairs
    (example [i], weight [i]) of the dataset in order, for every [i] that has
    both an example and a weight: no example is handed out with the weight
    of another. *)
Theorem epoch_pairs_examples_with_weights self :
  0 < batch_size self →
  ∃ bs : list (batch item),
    (∀ fuel, (Z.to_nat (ceil_div (__len__ self) (batch_size self)) < fuel)%nat →
             epoch fuel self = Some (Return bs)) ∧
    concat ((λ bt : batch item, zip bt.1 bt.2) <$> bs)
    = zip (X self) (weights self).
Proof.
  intros Hb.
  pose proof (ceil_div_nonneg (__len__ self) _ Hb) as Hc.
  pose proof (ceil_div_least (__len__ self) _ Hb) as [Hle _].
  eexists. split.
  - intros fuel Hfuel. by apply epoch_windows.
  - rewrite <- list_fmap_compose.
    rewrite (list_fmap_ext _
               (λ k : nat, slice (zip (X self) (weights self))
                                 (Z.of_nat k * batch_size self)
                                 ((Z.of_nat k + 1) * batch_size self))).
    + rewrite concat_slices by done. apply take_ge. rewrite length_zip.
      rewrite Z2Nat.id by (unfold __len__ in *; lia). unfold __len__ in *. lia.
    + intros i k _. cbn. apply zip_slice; [|lia].
      apply Z.mul_nonneg_nonneg; lia.
Qed.

(** X4.  With a positive batch size, the weight slices of one epoch put end to
    end are [weights[0 : ceil(n / b) * b]]: the weight vector is cut where the
    last window ends, not where the dataset ends, and it comes out whole when
    it has no more entries than that. *)
Theorem epoch_weights self :
  0 < batch_size self →
  let reach := ceil_div (__len__ self) (batch_size self) * batch_size self in
  ∃ bs : list (batch item),
    (∀ fuel, (Z.to_nat (ceil_div (__len__ self) (batch_size self)) < fuel)%nat →
             epoch fuel self = Some (Return bs)) ∧
    concat (bs.*2) = take (Z.to_nat reach) (weights self) ∧
    (Z.of_nat (length (weights self)) ≤ reach → concat (bs.*2) = weights self).
Proof.
  intros Hb reach. subst reach.
  pose proof (ceil_div_nonneg (__len__ self) _ Hb) as Hc.
  assert (concat ((window self <$>
                   seq 0 (Z.to_nat (ceil_div (__len__ self) (batch_size self)))).*2)
          = take (Z.to_nat (ceil_div (__len__ self) (batch_size self)
                            * batch_size self)) (weights self)) as Hcat.
  { rewrite <- list_fmap_compose.
    rewrite <- (Z2Nat.id (ceil_div _ _)) at 2 by (unfold __len__ in *; lia).
    rewrite <- (concat_slices (weights self)) by done. done. }
  eexists. split_and!.
  - intros fuel Hfuel. by apply epoch_windows.
  - done.
  - intros Hlen. rewrite Hcat. apply take_ge. lia.
Qed.

(** X5.  With a positive batch size [b], every batch handed out has as many
    weights as examples exactly when the weight vector is as long as the
    dataset, or is longer while the dataset length is a multiple of [b]. *)
Theorem batches_aligned_iff self :
  0 < batch_size self →
  let n := __len__ self in
  let m := Z.of_nat (length (weights self)) in
  (∀ k xs ws, yielded self k = Return (xs, ws) → length xs = length ws)
  ↔ m = n ∨ (n ≤ m ∧ n `mod` batch_size self = 0).
Proof.
  intros Hb n m. subst n m.
  pose proof (ceil_div_nonneg (__len__ self) _ Hb) as Hc.
  pose proof (ceil_div_least (__len__ self) _ Hb) as [Hle _].
  assert (0 ≤ __len__ self) as Hn by (unfold __len__; lia).
  assert (∀ k, Z.of_nat k * batch_size self < __len__ self →
               yielded self k = Return (window self k)) as Hyield.
  { intros k Hk. rewrite yielded_then_exhausted by done.
    apply (ceil_div_lt _ _ _ Hb) in Hk.
    by destruct (Z.ltb_spec (Z.of_nat k)
                   (ceil_div (__len__ self) (batch_size self))); [|lia]. }
  assert (∀ k, Z.of_nat k * batch_size self < __len__ self →
               Z.of_nat (length (window self k).2)
               = Z.max 0 (Z.min ((Z.of_nat k + 1) * batch_size self)
                                (Z.of_nat (length (weights self)))
                          - Z.min (Z.of_nat k * batch_size self)
                                  (Z.of_nat (length (weights self))))) as Hws.
  { intros k Hk. cbn [window snd].
    apply length_slice_nonneg; [apply Z.mul_nonneg_nonneg; lia | nia]. }
  split.
  - intros Hal.
    destruct (Z.lt_trichotomy (Z.of_nat (length (weights self))) (__len__ self))
      as [Hlt|[Heq|Hgt]]; [exfalso|by left|right].
    + assert (0 ≤ Z.of_nat (length (weights self)) / batch_size self) as Hq
        by (apply Z.div_pos; lia).
      pose proof (Z.mul_div_le (Z.of_nat (length (weights self))) _ Hb) as Hlo.
      pose proof (Z.mul_succ_div_gt (Z.of_nat (length (weights self))) _ Hb) as Hhi.
      set (k := Z.to_nat (Z.of_nat (length (weights self)) / batch_size self)).
      assert (Z.of_nat k = Z.of_nat (length (weights self)) / batch_size self) as Hk
        by (unfold k; lia).
      clearbody k.
      assert (Z.of_nat k * batch_size self < __len__ self) as Hkn
        by (rewrite Hk; lia).
      specialize (Hal k _ _ (Hyield k Hkn)).
      pose proof (length_window self k Hb Hkn) as Hxs.
      pose proof (Hws k Hkn) as Hw. cbn [window fst snd] in Hxs, Hw.
      rewrite <- Hk in Hlo, Hhi. unfold __len__ in *. lia.
    + split; [lia|].
      destruct (decide (__len__ self = 0)) as [->|Hn0]; [apply Z.mod_0_l; lia|].
      assert (0 < ceil_div (__len__ self) (batch_size self)) as Hcpos
        by (apply ceil_div_lt; lia).
      assert (∃ k, ceil_div (__len__ self) (batch_size self) = Z.of_nat k + 1)
        as [k Hk]
        by (exists (Z.to_nat (ceil_div (__len__ self) (batch_size self) - 1)); lia).
      assert (Z.of_nat k * batch_size self < __len__ self) as Hkn
        by (apply ceil_div_lt; lia).
      specialize (Hal k _ _ (Hyield k Hkn)).
      pose proof (length_window self k Hb Hkn) as Hxs.
      pose proof (Hws k Hkn) as Hw. cbn [window fst snd] in Hxs, Hw.
      rewrite Hk in Hle.
      assert (__len__ self = (Z.of_nat k + 1) * batch_size self) as ->
        by (unfold __len__ in *; lia).
      apply Z.mod_mul. lia.
  - intros Hcond k xs ws Hk.
    rewrite yielded_then_exhausted in Hk by done.
    destruct (Z.ltb_spec (Z.of_nat k) (ceil_div (__len__ self) (batch_size self)))
      as [Hlt|]; [|done].
    apply ceil_div_lt in Hlt; [|done]. injection Hk as <- <-.
    pose proof (length_window self k Hb Hlt) as Hxs.
    pose proof (Hws k Hlt) as Hw. cbn [window fst snd] in Hxs, Hw.
    destruct Hcond as [Heq|[Hle' Hmod]]; [unfold __len__ in *; lia|].
    apply Z.mod_divide in Hmod as [q Hq]; [|lia].
    assert ((Z.of_nat k + 1) * batch_size self ≤ __len__ self).
    { rewrite Hq in Hlt |- *. apply Z.mul_lt_mono_pos_r in Hlt; [|done].
      apply Z.mul_le_mono_nonneg_r; lia. }
    unfold __len__ in *. lia.
Qed.
End Weights.

Lemma epoch_pairs_examples_with_weights_witness :
  0 < 2 ∧
  ∃ bs : list (MemoryMapGenerator.batch Z),
    (∀ fuel, (3 < fuel)%nat →
             MemoryMapGenerator.epoch fuel five_long_weights = Some (Return bs)) ∧
    concat ((λ bt : MemoryMapGenerator.batch Z, zip bt.1 bt.2) <$> bs)
    = [(10, 1); (11, 2); (12, 3); (13, 4); (14, 5)].
Proof.
  split; [reflexivity|].
  exact (epoch_pairs_examples_with_weights five_long_weights eq_refl).
Defined.

Lemma epoch_weights_witness :
  0 < 2 ∧
  ∃ bs : list (MemoryMapGenerator.batch Z),
    (∀ fuel, (3 < fuel)%nat →
             MemoryMapGenerator.epoch fuel five_long_weights = Some (Return bs)) ∧
    concat (bs.*2) = [1; 2; 3; 4; 5; 6] ∧
    (7 ≤ 6 → concat (bs.*2) = [1; 2; 3; 4; 5; 6; 7]).
Proof.
  split; [reflexivity|].
  exact (epoch_weights five_long_weights eq_refl).
Defined.

Lemma batches_aligned_iff_witness :
  0 < 2 ∧
  (∀ k xs ws, MemoryMapGenerator.yielded five k = Return (xs, ws) →
              length xs = length ws) ∧
  ¬ (∀ k xs ws, MemoryMapGenerator.yielded five_long_weights k = Return (xs, ws) →
                length xs = length ws).
Proof.
  split_and!; [reflexivity | |].
  - apply (batches_aligned_iff five eq_refl). left. reflexivity.
  - intros [Heq|[_ Hmod]]%(batches_aligned_iff five_long_weights eq_refl);
      discriminate.
Defined.

(** ** A batch size below zero *)

Lemma slice_backwards {A : Type} (a : list A) (s e : Z) :
  s < 0 → e ≤ s → slice a s e = [].
Proof.
  intros Hs He. unfold slice, adjust_index.
  destruct (Z.ltb_spec s 0), (Z.ltb_spec e 0); try lia.
  replace (Z.to_nat _) with 0%nat by lia. done.
Qed.

Lemma slice_all_but {A : Type} (a : list A) (e : Z) :
  e < 0 → slice a 0 e = take (Z.to_nat (Z.of_nat (length a) + e)) a.
Proof.
  intros He. unfold slice, adjust_index.
  destruct (Z.ltb_spec 0 0), (Z.ltb_spec e 0); try lia.
  replace (Z.to_nat (0 `min` Z.of_nat (length a))) with 0%nat by lia.
  rewrite drop_0. f_equal. lia.
Qed.

(** Every slice is a run of consecutive entries of the array. *)
Lemma slice_infix {A : Type} (a : list A) (s e : Z) :
  ∃ pre post, a = pre ++ slice a s e ++ post.
Proof.
  unfold slice. eexists (take _ a), (drop _ (drop _ a)).
  by rewrite !take_drop.
Qed.

Section OddBatchSizes.
Import MemoryMapGenerator.
Context {item : Type}.
Implicit Types (self : t item) (k j : nat).

(** X6.  With a batch size [b < 0] on a dataset that is not empty, the first
    call of [next()] hands out all but the last [|b|] examples (and all but
    the last [|b|] weights), and every later call hands out a pair of empty
    slices: the last examples are never handed out. *)
Theorem negative_batch_size self :
  batch_size self < 0 →
  0 < __len__ self →
  yielded self 0
  = Return (take (Z.to_nat (__len__ self + batch_size self)) (X self),
            take (Z.to_nat (Z.of_nat (length (weights self)) + batch_size self))
                 (weights self)) ∧
  ∀ k, (0 < k)%nat → yielded self k = Return ([], []).
Proof.
  intros Hb Hn.
  assert (∀ k, Z.of_nat k * batch_size self ≤ 0) as Hneg
    by (intros k; apply Z.mul_nonneg_nonpos; lia).
  assert (∀ k, yielded self k = Return (window self k)) as Hyield.
  { intros k. unfold yielded.
    rewrite resume_after by (intros j _; specialize (Hneg j); lia).
    specialize (Hneg k).
    by destruct (Z.ltb_spec (Z.of_nat k * batch_size self) (__len__ self)); [|lia]. }
  split.
  - rewrite Hyield. unfold window. cbn [Z.of_nat]. rewrite Z.mul_0_l, Z.add_0_l, Z.mul_1_l.
    by rewrite !slice_all_but.
  - intros k Hk. rewrite Hyield. unfold window.
    assert (Z.of_nat k * batch_size self < 0) by (apply Z.mul_pos_neg; lia).
    rewrite !slice_backwards by lia. done.
Qed.

(** X8.  Whatever the batch size, the examples of a batch handed out are a
    run of consecutive examples of the dataset, in the order of the dataset,
    and its weights are a run of consecutive weights: nothing is reordered,
    repeated inside a batch, or made up. *)
Theorem yielded_consecutive self k xs ws :
  yielded self k = Return (xs, ws) →
  (∃ pre post, X self = pre ++ xs ++ post) ∧
  (∃ pre post, weights self = pre ++ ws ++ post).
Proof.
  unfold yielded. destruct (resume self (after self k)) as [r fr'] eqn:Hres.
  cbn. intros ->. apply resume_Return in Hres as (s & e & [= -> ->]).
  split; apply slice_infix.
Qed.
End OddBatchSizes.

Lemma negative_batch_size_witness :
  -1 < 0 ∧ 0 < 3 ∧
  MemoryMapGenerator.yielded three_backwards 0 = Return ([5; 6], [1; 1]) ∧
  MemoryMapGenerator.yielded three_backwards 4 = Return ([], []).
Proof.
  destruct (negative_batch_size three_backwards eq_refl eq_refl) as [Hfirst Hrest].
  split_and!; [reflexivity | reflexivity | exact Hfirst |].
  apply (Hrest 4%nat). apply Nat.lt_0_succ.
Defined.

Lemma yielded_consecutive_witness :
  MemoryMapGenerator.yielded five 1 = Return ([12; 13], [1; 1]) ∧
  (∃ pre post, [10; 11; 12; 13; 14] = pre ++ [12; 13] ++ post) ∧
  (∃ pre post, [1; 1; 1; 1; 1] = pre ++ [1; 1] ++ post).
Proof.
  split; [reflexivity|].
  exact (yielded_consecutive five 1 [12; 13] [1; 1] eq_refl).
Defined.

(** ** Two traversals of one generator object *)

Lemma occurrences_cons {A : Type} `{EqDecision A} (x y : A) (l : list A) :
  occurrences x (y :: l) = if decide (y = x) then S (occurrences x l) else occurrences x l.
Proof. unfold occurrences. rewrite filter_cons. by destruct (decide (y = x)). Qed.

Lemma occurrences_replicate {A : Type} `{EqDecision A} (x : A) (k : nat) :
  occurrences x (replicate k x) = k.
Proof.
  induction k as [|k IH]; [done|].
  cbn [replicate]. rewrite occurrences_cons, decide_True by done. by rewrite IH.
Qed.

Lemma occurrences_fmap_inj {A B : Type} `{EqDecision A, EqDecision B}
    (f : A → B) (x : A) (l : list A) :
  (∀ y, f y = f x → y = x) → occurrences (f x) (f <$> l) = occurrences x l.
Proof.
  intros Hinj. induction l as [|y l IH]; [done|].
  rewrite fmap_cons, !occurrences_cons, IH.
  destruct (decide (y = x)) as [->|Hne].
  - by rewrite decide_True.
  - rewrite decide_False; [done|]. intros Heq. by apply Hne, Hinj.
Qed.

Section Independence.
Import MemoryMapGenerator.
Context {item : Type}.
Implicit Types (self : t item) (h : heap item) (g k m : nat).

(** On an empty dataset the generator has returned after its first call. *)
Lemma after_empty self k : __len__ self = 0 → after self (S k) = Finished.
Proof.
  intros Hn. induction k as [|k IH].
  - cbn [after]. by rewrite resume_empty.
  - change (after self (S (S k))) with (resume self (after self (S k))).2.
    by rewrite IH.
Qed.

(** Call [k] of [next()] on a fresh generator, for any batch size: window [k]
    as long as the dataset is not empty and the window starts inside it, and
    [StopIteration] otherwise. *)
Lemma yielded_closed self k :
  yielded self k =
    if (0 <? __len__ self) && (Z.of_nat k * batch_size self <? __len__ self)
    then Return (window self k)
    else Raise StopIteration.
Proof.
  unfold yielded.
  destruct (Z.ltb_spec 0 (__len__ self)) as [Hn|Hn]; cbn [andb].
  - destruct (decide (0 < batch_size self)) as [Hb|Hb].
    + destruct (Z.ltb_spec (Z.of_nat k * batch_size self) (__len__ self)) as [Hlt|Hge].
      * apply (ceil_div_lt _ _ _ Hb) in Hlt.
        rewrite resume_after by (intros j Hj; apply ceil_div_lt; lia).
        apply (ceil_div_lt _ _ _ Hb) in Hlt.
        by destruct (Z.ltb_spec (Z.of_nat k * batch_size self) (__len__ self)); [|lia].
      * assert (ceil_div (__len__ self) (batch_size self) ≤ Z.of_nat k) as Hc.
        { pose proof (proj1 (ceil_div_lt (__len__ self) (batch_size self)
                               (Z.of_nat k) Hb)). lia. }
        destruct (decide (ceil_div (__len__ self) (batch_size self) = Z.of_nat k)).
        -- rewrite resume_after by (intros j Hj; apply ceil_div_lt; lia).
           by destruct (Z.ltb_spec (Z.of_nat k * batch_size self) (__len__ self));
             [lia|].
        -- rewrite after_exhausted by lia. done.
    + assert (∀ j : nat, Z.of_nat j * batch_size self ≤ 0) as Hneg
        by (intros j; apply Z.mul_nonneg_nonpos; lia).
      rewrite resume_after by (intros j _; specialize (Hneg j); lia).
      specialize (Hneg k).
      by destruct (Z.ltb_spec (Z.of_nat k * batch_size self) (__len__ self)); [|lia].
  - assert (__len__ self = 0) as Hn0 by (unfold __len__ in *; lia).
    destruct k as [|k].
    + change (after self 0) with (batches self). by rewrite resume_empty.
    + by rewrite after_empty.
Qed.

Lemma outputs_of_cons g g' (r : outcome (batch item)) log :
  outputs_of g ((g', r) :: log)
  = if decide (g' = g) then r :: outputs_of g log else outputs_of g log.
Proof. unfold outputs_of. rewrite filter_cons. cbn. by destruct (decide (g' = g)). Qed.

(** The body assigns no attribute: the instance comes out as it went in. *)
Lemma body_instance self fr : (body self fr).1.2 = self.
Proof. unfold body. by destruct (resume self fr). Qed.

(** A call of [next()] leaves the instance and the number of generators as
    they are, and moves the frame of the generator called only. *)
Lemma next_frames g h r h' :
  next g h = Some (r, h') →
  this h' = this h ∧
  ∃ fr, generators h !! g = Some fr ∧
        r = (resume (this h) fr).1 ∧
        generators h' = <[g := (resume (this h) fr).2]> (generators h).
Proof.
  unfold next, body. destruct (generators h !! g) as [fr|]; [|done]. cbn.
  destruct (resume (this h) fr) as [r0 fr'] eqn:Hres. intros [= <- <-].
  split; [done|]. exists fr. by rewrite Hres.
Qed.

(** Calls of [next()] on valid references all go through. *)
Lemma run_is_Some calls h :
  Forall (λ g, (g < length (generators h))%nat) calls → is_Some (run calls h).
Proof.
  revert h. induction calls as [|g calls IH]; intros h Hcalls; [by eexists|].
  apply Forall_cons in Hcalls as [Hg Hcalls]. cbn [run]. unfold next, body.
  apply lookup_lt_is_Some in Hg as [fr ->]. cbn.
  destruct (resume (this h) fr) as [r fr']. cbn.
  destruct (IH {| this := this h; generators := <[g:=fr']> (generators h) |})
    as [[log h''] ->]; [|by eexists].
  cbn. by rewrite length_insert.
Qed.

(** A generator that has been called [m] times, in a store where other
    generators are called as well, gives what a generator traversed alone
    gives from call [m] on, and ends as many calls further as it was
    called. *)
Lemma run_outputs self calls h g m log h' :
  run calls h = Some (log, h') →
  this h = self →
  generators h !! g = Some (after self m) →
  this h' = self ∧
  length (generators h') = length (generators h) ∧
  generators h' !! g = Some (after self (m + occurrences g calls)) ∧
  outputs_of g log = yielded self <$> seq m (occurrences g calls).
Proof.
  revert h m log. induction calls as [|g' calls IH]; intros h m log.
  { intros [= <- <-] Hself Hg. by rewrite Nat.add_0_r. }
  cbn [run]. destruct (next g' h) as [[r h1]|] eqn:Hnext; [|done].
  cbn -[occurrences outputs_of].
  destruct (run calls h1) as [[log' h'']|] eqn:Hrun; [|done].
  cbn -[occurrences outputs_of].
  intros [= <- <-] Hself Hg.
  apply next_frames in Hnext as (Hthis & fr & Hfr & -> & Hgens).
  rewrite Hself in *. rewrite occurrences_cons, outputs_of_cons.
  destruct (decide (g' = g)) as [->|Hne].
  - rewrite Hg in Hfr. injection Hfr as <-.
    destruct (IH h1 (S m) log' Hrun Hthis) as (? & Hlen & ? & ->).
    { rewrite Hgens. apply list_lookup_insert_eq. by eapply lookup_lt_Some. }
    rewrite Hgens, length_insert in Hlen.
    split_and!; [done|done| |done]. by rewrite Nat.add_succ_r.
  - destruct (IH h1 m log' Hrun Hthis) as (? & Hlen & ? & ->).
    { rewrite Hgens. by rewrite list_lookup_insert_ne. }
    rewrite Hgens, length_insert in Hlen. done.
Qed.

(** C8.  Let [nth j] be what a traversal gives at its call [j] when it starts
    at position zero: the pair [(X[j*b : (j+1)*b], weights[j*b : (j+1)*b])] as
    long as the dataset is not empty and [j*b < n], and [StopIteration]
    otherwise.  After [g1 = self.batches()] and any number [k] of calls
    [next(g1)], wherever that leaves the cursor of [g1], a second
    [g2 = self.batches()] gives [nth 0, nth 1, ...]: it starts at position
    zero and gives what [g1] gave from its own first call, however its calls
    are mixed with further calls on [g1]; [g1] goes on with [nth k, ...] as
    if [g2] were not there; and the instance is left as it was. *)
Theorem batches_twice_independent self k (calls : list bool) :
  let n := __len__ self in
  let b := batch_size self in
  let nth (j : nat) : outcome (batch item) :=
    if (0 <? n) && (Z.of_nat j * b <? n)
    then Return (slice (X self) (Z.of_nat j * b) ((Z.of_nat j + 1) * b),
                 slice (weights self) (Z.of_nat j * b) ((Z.of_nat j + 1) * b))
    else Raise StopIteration in
  batches_twice self k calls
  = Some (nth <$> seq 0 k,
          nth <$> seq k (occurrences false calls),
          nth <$> seq 0 (occurrences true calls),
          self).
Proof.
  intros n b nth.
  assert (∀ l : list nat, yielded self <$> l = nth <$> l) as Hnth.
  { intros l. apply list_fmap_ext. intros _ j _. apply yielded_closed. }
  rewrite <- !Hnth. clear Hnth nth n b.
  unfold batches_twice, call_batches, new_heap. cbn [generators this length app].
  destruct (run_is_Some (replicate k 0%nat)
              {| this := self; generators := [batches self] |})
    as [[log1 h1] Hrun1].
  { apply Forall_replicate. cbn. lia. }
  rewrite Hrun1. cbn.
  destruct (run_outputs self _ _ 0%nat 0%nat _ _ Hrun1 eq_refl eq_refl)
    as (Hthis1 & Hlen1 & Hg1 & ->).
  rewrite occurrences_replicate in *. cbn [generators length] in Hlen1.
  rewrite Hlen1, Hthis1.
  set (pick := λ second : bool, if second then 1%nat else 0%nat).
  set (h2 := {| this := self; generators := generators h1 ++ [batches self] |}).
  destruct (run_is_Some (pick <$> calls) h2) as [[log h3] Hrun2].
  { apply Forall_fmap, Forall_forall. intros [] _; cbn; rewrite length_app, Hlen1;
      cbn; lia. }
  rewrite Hrun2. cbn.
  destruct (run_outputs self _ _ 0%nat k _ _ Hrun2 eq_refl) as (-> & _ & _ & ->).
  { cbn. rewrite lookup_app_l by lia. done. }
  destruct (run_outputs self _ _ 1%nat 0%nat _ _ Hrun2 eq_refl) as (_ & _ & _ & ->).
  { cbn. rewrite lookup_app_r by lia. rewrite Hlen1. done. }
  change (occurrences 0%nat (pick <$> calls))
    with (occurrences (pick false) (pick <$> calls)).
  change (occurrences 1%nat (pick <$> calls))
    with (occurrences (pick true) (pick <$> calls)).
  rewrite !occurrences_fmap_inj; [done|by intros []..].
Qed.
End Independence.
